(** * The [AsyncEmbeddingEngine] facade of infinity_emb

    A shallow embedding of [libs/infinity_emb/infinity_emb/engine.py]: the
    engine object, its lifecycle methods and its request methods, written
    as computations of a small state-and-exception monad.  The
    collaborators the module imports ([select_model], [BatchHandler],
    [logger]) live outside the file; every call to one of them is recorded
    in an event log and answered by an oracle that may depend on the log
    so far. *)

From Stdlib Require Import ZArith String List Floats.
From stdpp Require Import base gmap strings.
Import ListNotations.
Local Open Scope string_scope.
Local Open Scope Z_scope.

(** ** Python values carried by keyword dictionaries *)

Inductive Value :=
| VNone
| VBool (b : bool)
| VInt (z : Z)
| VStr (s : string).

(** Truth value of an object, as [if x:] tests it. *)
Definition truthy (v : Value) : bool :=
  match v with
  | VNone => false
  | VBool b => b
  | VInt z => negb (z =? 0)
  | VStr s => negb (String.eqb s "")
  end.

(** [x is None]. *)
Definition is_None (v : Value) : bool :=
  match v with
  | VNone => true
  | _ => false
  end.

(** ** Exceptions *)

(** What a collaborator raises ([ModelNotDeployedError], a failure while
    loading a model, ...): the facade never inspects it. *)
Record ExtError := { ext_name : string }.

Inductive Exn :=
| ValueError (msg : string)          (* raised by the facade itself *)
| AttributeError (attr : string)     (* reading an attribute never assigned *)
| TypeError (msg : string)           (* a keyword of the wrong shape *)
| Propagated (e : ExtError).         (* raised by a collaborator *)

(** ** Collaborator data *)

(** Modelled from the spec: [infinity_emb.args.EngineArgs], a dataclass
    declared outside [engine.py].  The spec lists a model path/name, a
    maximum batch size, an optional cache path, a
    tokenization-length-estimation flag and further pass-through fields;
    the pass-through fields are kept by name. *)
Record EngineArgs := {
  model_name_or_path : string;
  batch_size : Z;
  vector_disk_cache_path : option string;
  lengths_via_tokenize : bool;
  passthrough : gmap string Value;
}.

(** Modelled from the spec: the loaded model, declared outside
    [engine.py].  The engine reads nothing of it but [capabilities], a
    set of capability names. *)
Record Model := {
  model_id : string;
  model_capabilities : gset string;
}.

(** Keyword arguments of [BatchHandler(...)] as [astart] passes them. *)
Record BatchHandlerKw := {
  max_batch_size : Z;
  model : Model;
  batch_delay : float;
  kw_vector_disk_cache_path : option string;
  verbose : bool;
  kw_lengths_via_tokenize : bool;
}.

(** A constructed [BatchHandler]: its construction arguments and the
    position in the log at which it was built (its identity). *)
Record BatchHandler := {
  bh_id : nat;
  bh_kw : BatchHandlerKw;
}.

(** Modelled from the spec: the result types of
    [infinity_emb.primitives], which the facade only passes through. *)
Definition EmbeddingReturnType := list float.
Definition ClassifyReturnType := list (string * float).

(** ** The engine object *)

Record AsyncEmbeddingEngine := {
  engine_args : EngineArgs;
  running : bool;
  _model : Model;
  _min_inference_t : float;
  _max_inference_t : float;
  _batch_handler : option BatchHandler;  (* [None]: attribute not yet assigned *)
}.

(** ** Events: every call that leaves the facade *)

Inductive Method := M_astart | M_astop.

Inductive Event :=
| EvWarning (msg : string)
| EvSelectModel (args : EngineArgs)
| EvBatchHandler (kw : BatchHandlerKw)
| EvSpawn (bh : BatchHandler)
| EvShutdown (bh : BatchHandler)
| EvOverloadStatus (bh : BatchHandler)
| EvIsOverloaded (bh : BatchHandler)
| EvEmbed (bh : BatchHandler) (sentences : list string)
| EvRerank (bh : BatchHandler) (query : string) (docs : list string)
           (raw_scores : bool)
| EvClassify (bh : BatchHandler) (sentences : list string)
             (raw_scores : option bool)  (* [None]: keyword not passed *)
| EvAwait (m : Method).                  (* [await self.m()] in a scope hook *)

Definition Log := list Event.

(** Modelled from the spec: the load report of the batch handler, which
    the facade only passes through. *)
Record OverloadStatus := {
  queue_fraction : float;
  queue_absolute : Z;
}.

(** ** The collaborators, as oracles over the log *)

Record Collaborators := {
  (* [infinity_emb.inference.select_model] *)
  select_model : Log -> EngineArgs -> ExtError + (Model * float * float);
  (* [logger.level] *)
  logger_level : Log -> Z;
  (* declared defaults of the [EngineArgs] fields *)
  EngineArgs_defaults : EngineArgs;
  (* [BatchHandler(...)]: [Some e] when the constructor raises [e] *)
  BatchHandler_new : Log -> BatchHandlerKw -> option ExtError;
  bh_spawn : Log -> BatchHandler -> option ExtError;
  bh_shutdown : Log -> BatchHandler -> option ExtError;
  bh_overload_status : Log -> BatchHandler -> ExtError + OverloadStatus;
  bh_is_overloaded : Log -> BatchHandler -> ExtError + bool;
  bh_embed : Log -> BatchHandler -> list string ->
             ExtError + (list EmbeddingReturnType * Z);
  bh_rerank : Log -> BatchHandler -> string -> list string -> bool ->
              ExtError + (list float * Z);
  bh_classify : Log -> BatchHandler -> list string -> option bool ->
                ExtError + (list ClassifyReturnType * Z);
}.

(** ** The monad of methods: the receiver and the log are threaded, and an
    exception leaves both as they were when it was raised. *)

Record Heap := {
  self : AsyncEmbeddingEngine;
  log : Log;
}.

Definition M (A : Type) : Type := Heap -> (Exn + A) * Heap.

Definition ret {A} (a : A) : M A := fun h => (inr a, h).

Definition bind {A B} (m : M A) (k : A -> M B) : M B :=
  fun h =>
    match m h with
    | (inl e, h') => (inl e, h')
    | (inr a, h') => k a h'
    end.

Definition raise {A} (e : Exn) : M A := fun h => (inl e, h).

Declare Scope py_scope.
Delimit Scope py_scope with py.
Notation "'let*' x ':=' m 'in' k" := (bind m (fun x => k))
  (at level 10, x name, m at level 200, k at level 200) : py_scope.
Notation "'let*' ' p ':=' m 'in' k" :=
  (bind m (fun x => match x with p => k end))
  (at level 10, p pattern, m at level 200, k at level 200) : py_scope.
Notation "'do' m 'then' k" := (bind m (fun _ => k))
  (at level 10, m at level 200, k at level 200) : py_scope.
Local Open Scope py_scope.

(** Attribute reads and writes on [self]. *)
Definition attr {A} (f : AsyncEmbeddingEngine -> A) : M A :=
  fun h => (inr (f (self h)), h).

Definition set_running (b : bool) : M unit :=
  fun h =>
    let s := self h in
    (inr tt,
     {| self := {| engine_args := engine_args s; running := b;
                   _model := _model s;
                   _min_inference_t := _min_inference_t s;
                   _max_inference_t := _max_inference_t s;
                   _batch_handler := _batch_handler s |};
        log := log h |}).

Definition set_batch_handler (bh : BatchHandler) : M unit :=
  fun h =>
    let s := self h in
    (inr tt,
     {| self := {| engine_args := engine_args s; running := running s;
                   _model := _model s;
                   _min_inference_t := _min_inference_t s;
                   _max_inference_t := _max_inference_t s;
                   _batch_handler := Some bh |};
        log := log h |}).

(** [self._batch_handler]: an [AttributeError] until [astart] assigned it. *)
Definition get_batch_handler : M BatchHandler :=
  fun h =>
    match _batch_handler (self h) with
    | Some bh => (inr bh, h)
    | None => (inl (AttributeError "_batch_handler"), h)
    end.

(** A call to a collaborator: the call is logged, then the oracle answers
    from the log as it was before the call. *)
Definition extern {A} (ev : Event) (oracle : Log -> ExtError + A) : M A :=
  fun h =>
    let h' := {| self := self h; log := (log h ++ [ev])%list |} in
    match oracle (log h) with
    | inl x => (inl (Propagated x), h')
    | inr a => (inr a, h')
    end.

Definition unit_answer (o : option ExtError) : ExtError + unit :=
  match o with
  | Some x => inl x
  | None => inr tt
  end.

Definition read_logger_level (c : Collaborators) : M Z :=
  fun h => (inr (logger_level c (log h)), h).

(** ** Messages *)

Definition msg_deprecated : string :=
  "AsyncEmbeddingEngine() is deprecated since 0.0.25. " ++
  "Use `AsyncEmbeddingEngine.from_args()` instead".

Definition msg_double_spawn : string :=
  "DoubleSpawn: already started `AsyncEmbeddingEngine`. " ++
  " recommended use is via AsyncContextManager" ++
  " `async with engine: ..`".

Definition msg_not_started : string :=
  "didn't start `AsyncEmbeddingEngine` " ++
  " recommended use is via AsyncContextManager" ++
  " `async with engine: ..`".

Section Engine.

Variable c : Collaborators.

(** ** Lifecycle *)

Definition _check_running : M unit :=
  let* r := attr running in
  if negb r then raise (ValueError msg_not_started) else ret tt.

Definition astart : M unit :=
  let* r := attr running in
  if r then raise (ValueError msg_double_spawn)
  else
    do set_running true then
    let* a := attr engine_args in
    let* m := attr _model in
    let* t := attr _min_inference_t in
    let* lvl := read_logger_level c in
    let kw := {| max_batch_size := batch_size a;
                 model := m;
                 batch_delay := (t / 2)%float;
                 kw_vector_disk_cache_path := vector_disk_cache_path a;
                 verbose := (lvl <=? 10);
                 kw_lengths_via_tokenize := lengths_via_tokenize a |} in
    let* bh := extern (EvBatchHandler kw)
                 (fun l => match BatchHandler_new c l kw with
                           | Some x => inl x
                           | None => inr {| bh_id := length l; bh_kw := kw |}
                           end) in
    do set_batch_handler bh then
    extern (EvSpawn bh) (fun l => unit_answer (bh_spawn c l bh)).

Definition astop : M unit :=
  do _check_running then
  do set_running false then
  let* bh := get_batch_handler in
  extern (EvShutdown bh) (fun l => unit_answer (bh_shutdown c l bh)).

(** ** Load introspection and capabilities *)

Definition overload_status : M OverloadStatus :=
  do _check_running then
  let* bh := get_batch_handler in
  extern (EvOverloadStatus bh) (fun l => bh_overload_status c l bh).

Definition is_overloaded : M bool :=
  do _check_running then
  let* bh := get_batch_handler in
  extern (EvIsOverloaded bh) (fun l => bh_is_overloaded c l bh).

Definition capabilities : M (gset string) :=
  let* m := attr _model in
  ret (model_capabilities m).

(** ** Requests *)

Definition embed (sentences : list string)
  : M (list EmbeddingReturnType * Z) :=
  do _check_running then
  let* bh := get_batch_handler in
  let* '(embeddings, usage) :=
    extern (EvEmbed bh sentences) (fun l => bh_embed c l bh sentences) in
  ret (embeddings, usage).

Definition rerank (query : string) (docs : list string) (raw_scores : bool)
  : M (list float * Z) :=
  do _check_running then
  let* bh := get_batch_handler in
  let* '(scores, usage) :=
    extern (EvRerank bh query docs raw_scores)
           (fun l => bh_rerank c l bh query docs raw_scores) in
  ret (scores, usage).

Definition classify (sentences : list string) (raw_scores : bool)
  : M (list ClassifyReturnType * Z) :=
  do _check_running then
  let* bh := get_batch_handler in
  let* '(scores, usage) :=
    extern (EvClassify bh sentences None)
           (fun l => bh_classify c l bh sentences None) in
  ret (scores, usage).

End Engine.

(** ** Construction *)

(** [dataclasses.asdict]: the fields by name. *)
Definition asdict (a : EngineArgs) : gmap string Value :=
  <["model_name_or_path" := VStr (model_name_or_path a)]>
  (<["batch_size" := VInt (batch_size a)]>
  (<["vector_disk_cache_path" :=
       match vector_disk_cache_path a with
       | Some p => VStr p
       | None => VNone
       end]>
  (<["lengths_via_tokenize" := VBool (lengths_via_tokenize a)]>
  (passthrough a)))).

Definition named_fields : list string :=
  ["model_name_or_path"; "batch_size"; "vector_disk_cache_path";
   "lengths_via_tokenize"].

Definition without_named (kw : gmap string Value) : gmap string Value :=
  foldr delete kw named_fields.

Definition field {A} (kw : gmap string Value) (name : string)
    (dflt : A) (conv : Value -> option A) : Exn + A :=
  match kw !! name with
  | None => inr dflt
  | Some v =>
      match conv v with
      | Some a => inr a
      | None => inl (TypeError name)
      end
  end.

Definition as_str (v : Value) : option string :=
  match v with VStr s => Some s | _ => None end.
Definition as_int (v : Value) : option Z :=
  match v with VInt z => Some z | _ => None end.
Definition as_bool (v : Value) : option bool :=
  match v with VBool b => Some b | _ => None end.
Definition as_opt_str (v : Value) : option (option string) :=
  match v with VStr s => Some (Some s) | VNone => Some None | _ => None end.

(** Modelled from the spec: the constructor of the [EngineArgs]
    dataclass, called with the keywords [kwargs].  A keyword that is
    absent takes the declared default; the four fields the spec names are
    typed, so a keyword of another shape is refused here. *)
Definition EngineArgs_new (dflt : EngineArgs) (kw : gmap string Value)
  : Exn + EngineArgs :=
  match field kw "model_name_or_path" (model_name_or_path dflt) as_str with
  | inl e => inl e
  | inr m =>
  match field kw "batch_size" (batch_size dflt) as_int with
  | inl e => inl e
  | inr b =>
  match field kw "vector_disk_cache_path" (vector_disk_cache_path dflt)
              as_opt_str with
  | inl e => inl e
  | inr p =>
  match field kw "lengths_via_tokenize" (lengths_via_tokenize dflt)
              as_bool with
  | inl e => inl e
  | inr t =>
      inr {| model_name_or_path := m;
             batch_size := b;
             vector_disk_cache_path := p;
             lengths_via_tokenize := t;
             passthrough := without_named kw ∪ passthrough dflt |}
  end end end end.

(** How the body of an [async with] block is left without an exception. *)
Inductive Exit (A : Type) :=
| Normal
| Return (a : A).
Arguments Normal {A}.
Arguments Return {A} a.

Section Construction.

Variable c : Collaborators.

(** [AsyncEmbeddingEngine.__init__]; the new object is the result. *)
Definition __init__ (model_name_or_path : Value)
    (_show_deprecation_warning : bool) (kwargs : gmap string Value)
    (l : Log) : (Exn + AsyncEmbeddingEngine) * Log :=
  let l1 := if _show_deprecation_warning
            then (l ++ [EvWarning msg_deprecated])%list else l in
  let kwargs1 :=
    if is_None model_name_or_path then kwargs
    else <["model_name_or_path" := model_name_or_path]> kwargs in
  match EngineArgs_new (EngineArgs_defaults c) kwargs1 with
  | inl e => (inl e, l1)
  | inr args =>
      let l2 := (l1 ++ [EvSelectModel args])%list in
      match select_model c l1 args with
      | inl x => (inl (Propagated x), l2)
      | inr (m, tmin, tmax) =>
          (inr {| engine_args := args;
                  running := false;
                  _model := m;
                  _min_inference_t := tmin;
                  _max_inference_t := tmax;
                  _batch_handler := None |}, l2)
      end
  end.

(** A call of the class with the keywords of [d] and
    [_show_deprecation_warning=w]: the keyword
    [model_name_or_path] binds the parameter of that name (default
    [None]), every other keyword lands in [kwargs]. *)
Definition call__init__ (d : gmap string Value) (w : bool)
  : Log -> (Exn + AsyncEmbeddingEngine) * Log :=
  __init__ (default VNone (d !! "model_name_or_path")) w
           (delete "model_name_or_path" d).

Definition from_args (engine_args : EngineArgs)
  : Log -> (Exn + AsyncEmbeddingEngine) * Log :=
  call__init__ (asdict engine_args) false.

(** ** Scoped lifecycle *)

(** [await self.m()] inside a scope hook; the await itself is logged. *)
Definition await {A} (m : Method) (body : M A) : M A :=
  fun h => body {| self := self h; log := (log h ++ [EvAwait m])%list |}.

Definition __aenter__ : M Value :=
  do await M_astart (astart c) then
  ret VNone.

Definition __aexit__ (args : option Exn) : M Value :=
  do await M_astop (astop c) then
  ret VNone.

(** [async with engine: body], following the language's protocol: the
    body runs only once [__aenter__] has returned; [__aexit__] runs after
    the body with the exception in flight, if any, and a true result
    swallows that exception. *)
Definition async_with {A} (body : M (Exit A)) : M (Exit A) :=
  fun h =>
    match __aenter__ h with
    | (inl e, h1) => (inl e, h1)
    | (inr _, h1) =>
        match body h1 with
        | (inl e, h2) =>
            match __aexit__ (Some e) h2 with
            | (inl e', h3) => (inl e', h3)
            | (inr v, h3) => if truthy v then (inr Normal, h3)
                             else (inl e, h3)
            end
        | (inr x, h2) =>
            match __aexit__ None h2 with
            | (inl e', h3) => (inl e', h3)
            | (inr _, h3) => (inr x, h3)
            end
        end
    end.

End Construction.

(** ** The three lifecycle states, read off the object

    The object keeps one flag.  [Created] and [Stopped] both have
    [running = False]; they differ in whether [_batch_handler] has ever
    been assigned. *)

Inductive EngineState := Created | Running | Stopped.

Definition state_of (e : AsyncEmbeddingEngine) : EngineState :=
  if running e then Running
  else match _batch_handler e with
       | None => Created
       | Some _ => Stopped
       end.

(** The keywords [astart] passes to [BatchHandler] from a given heap. *)
Definition start_kw (c : Collaborators) (h : Heap) : BatchHandlerKw :=
  {| max_batch_size := batch_size (engine_args (self h));
     model := _model (self h);
     batch_delay := (_min_inference_t (self h) / 2)%float;
     kw_vector_disk_cache_path :=
       vector_disk_cache_path (engine_args (self h));
     verbose := (logger_level c (log h) <=? 10);
     kw_lengths_via_tokenize :=
       lengths_via_tokenize (engine_args (self h)) |}.

Definition with_running (b : bool) (e : AsyncEmbeddingEngine)
  : AsyncEmbeddingEngine :=
  {| engine_args := engine_args e; running := b; _model := _model e;
     _min_inference_t := _min_inference_t e;
     _max_inference_t := _max_inference_t e;
     _batch_handler := _batch_handler e |}.

Definition with_batch_handler (bh : BatchHandler) (e : AsyncEmbeddingEngine)
  : AsyncEmbeddingEngine :=
  {| engine_args := engine_args e; running := running e; _model := _model e;
     _min_inference_t := _min_inference_t e;
     _max_inference_t := _max_inference_t e;
     _batch_handler := Some bh |}.

(** A call is rejected when it raises the facade's own [ValueError] and
    leaves the receiver and the log as they were. *)
Definition rejected {A} (m : M A) (h : Heap) : Prop :=
  m h = (inl (ValueError msg_not_started), h).

Definition is_await (m : Method) (ev : Event) : bool :=
  match ev, m with
  | EvAwait M_astart, M_astart => true
  | EvAwait M_astop, M_astop => true
  | _, _ => false
  end.

(** How many times [await self.m()] was executed in a stretch of log. *)
Definition awaits (m : Method) (l : Log) : nat :=
  length (List.filter (is_await m) l).

(** The heap at the moment a scope hook awaits [self.m()]. *)
Definition awaiting (m : Method) (h : Heap) : Heap :=
  {| self := self h; log := (log h ++ [EvAwait m])%list |}.

Definition is_shutdown (ev : Event) : bool :=
  match ev with
  | EvShutdown _ => true
  | _ => false
  end.

(** How many [shutdown] calls a stretch of log holds. *)
Definition shutdowns (l : Log) : nat :=
  length (List.filter is_shutdown l).

(** Well-formed configuration values: every pass-through field of the
    dataclass has a value, and none of them reuses a typed field's name. *)
Definition wf_args (c : Collaborators) (a : EngineArgs) : Prop :=
  Forall (fun k => passthrough a !! k = None) named_fields /\
  (forall k, is_Some (passthrough (EngineArgs_defaults c) !! k) ->
             is_Some (passthrough a !! k)).

(** ** Concrete collaborators used in the examples *)

Module Demo.

Definition args : EngineArgs :=
  {| model_name_or_path := "BAAI/bge-small-en-v1.5";
     batch_size := 32;
     vector_disk_cache_path := None;
     lengths_via_tokenize := false;
     passthrough := {[ "revision" := VNone ]} |}.

Definition bge : Model :=
  {| model_id := "BAAI/bge-small-en-v1.5";
     model_capabilities := {[ "embed"; "classify" ]} |}.

Definition boom : ExtError := {| ext_name := "RuntimeError" |}.

(** A runtime whose [classify] applies softmax unless told otherwise. *)
Definition classify_answer (raw : option bool)
  : ExtError + (list ClassifyReturnType * Z) :=
  match raw with
  | Some true => inr ([[("pos", 2%float); ("neg", 2%float)]], 3)
  | _ => inr ([[("pos", 0.5%float); ("neg", 0.5%float)]], 3)
  end.

Definition not_deployed : ExtError :=
  {| ext_name := "ModelNotDeployedError" |}.

(** Collaborators for a model that embeds and classifies but does not
    rerank; construction and spawn of the batch handler fail on request. *)
Definition world (ctor_fails spawn_fails : bool) : Collaborators :=
  {| select_model := fun _ _ => inr (bge, 0.5%float, 2%float);
     logger_level := fun _ => 20;
     EngineArgs_defaults := args;
     BatchHandler_new := fun _ _ => if ctor_fails then Some boom else None;
     bh_spawn := fun _ _ => if spawn_fails then Some boom else None;
     bh_shutdown := fun _ _ => None;
     bh_overload_status :=
       fun _ _ => inr {| queue_fraction := 0%float; queue_absolute := 0 |};
     bh_is_overloaded := fun _ _ => inr false;
     bh_embed := fun _ _ ss => inr (map (fun _ => [1%float]) ss, 1);
     bh_rerank := fun _ _ _ _ _ => inl not_deployed;
     bh_classify := fun _ _ _ raw => classify_answer raw |}.

Definition good : Collaborators := world false false.
Definition ctor_broken : Collaborators := world true false.
Definition spawn_broken : Collaborators := world false true.

Definition fresh : AsyncEmbeddingEngine :=
  {| engine_args := args; running := false; _model := bge;
     _min_inference_t := 0.5%float; _max_inference_t := 2%float;
     _batch_handler := None |}.

Definition h0 : Heap := {| self := fresh; log := [] |}.

Definition kw0 : BatchHandlerKw :=
  {| max_batch_size := 32; model := bge; batch_delay := 0.25%float;
     kw_vector_disk_cache_path := None; verbose := false;
     kw_lengths_via_tokenize := false |}.

Definition bh0 : BatchHandler := {| bh_id := 0; bh_kw := kw0 |}.

(** The heap after a successful [astart] on [h0]. *)
Definition h_running : Heap :=
  {| self := with_batch_handler bh0 (with_running true fresh);
     log := [EvBatchHandler kw0; EvSpawn bh0] |}.

(** ... after a successful [astop] on that ... *)
Definition h_stopped : Heap :=
  {| self := with_batch_handler bh0 fresh;
     log := [EvBatchHandler kw0; EvSpawn bh0; EvShutdown bh0] |}.

Definition bh1 : BatchHandler := {| bh_id := 1; bh_kw := kw0 |}.
Definition bh3 : BatchHandler := {| bh_id := 3; bh_kw := kw0 |}.

(** ... and after a second successful [astart]. *)
Definition h_restarted : Heap :=
  {| self := with_batch_handler bh3 (with_running true fresh);
     log := [EvBatchHandler kw0; EvSpawn bh0; EvShutdown bh0;
             EvBatchHandler kw0; EvSpawn bh3] |}.

(** The heap after an [astart] on [h0] whose [BatchHandler] constructor
    raised. *)
Definition h_half : Heap :=
  {| self := with_running true fresh; log := [EvBatchHandler kw0] |}.

End Demo.


(** * Properties *)

Local Open Scope list_scope.

(** ** Equations of the lifecycle methods *)

Lemma state_not_running (e : AsyncEmbeddingEngine) :
  state_of e <> Running <-> running e = false.
Proof.
  unfold state_of. destruct (running e).
  - split; [intros H; now elim H | discriminate].
  - split; [reflexivity | intros _].
    destruct (_batch_handler e); discriminate.
Qed.

Lemma state_created_or_stopped (e : AsyncEmbeddingEngine) :
  state_of e = Created \/ state_of e = Stopped <-> running e = false.
Proof.
  unfold state_of. destruct (running e).
  - split; [intros [H | H]; discriminate | discriminate].
  - split; [reflexivity | intros _].
    destruct (_batch_handler e); [right | left]; reflexivity.
Qed.

Lemma check_running_true h :
  running (self h) = true -> _check_running h = (inr tt, h).
Proof. intros H. unfold _check_running, bind, attr. now rewrite H. Qed.

Lemma check_running_false h :
  running (self h) = false ->
  _check_running h = (inl (ValueError msg_not_started), h).
Proof. intros H. unfold _check_running, bind, attr. now rewrite H. Qed.

(** [astart] on an engine that is already running. *)
Lemma astart_hot c h :
  running (self h) = true ->
  astart c h = (inl (ValueError msg_double_spawn), h).
Proof. intros H. unfold astart, bind, attr. now rewrite H. Qed.

(** [astart] on an engine that is not running, step by step. *)
Lemma astart_cold c h :
  running (self h) = false ->
  astart c h =
    let kw := start_kw c h in
    let bh := {| bh_id := length (log h); bh_kw := kw |} in
    match BatchHandler_new c (log h) kw with
    | Some x =>
        (inl (Propagated x),
         {| self := with_running true (self h);
            log := log h ++ [EvBatchHandler kw] |})
    | None =>
        (match bh_spawn c (log h ++ [EvBatchHandler kw]) bh with
         | Some x => inl (Propagated x)
         | None => inr tt
         end,
         {| self := with_batch_handler bh (with_running true (self h));
            log := log h ++ [EvBatchHandler kw; EvSpawn bh] |})
    end.
Proof.
  intros H.
  unfold astart, bind, attr, extern, set_running, set_batch_handler,
    read_logger_level, unit_answer, start_kw, with_batch_handler,
    with_running.
  rewrite H. cbn.
  destruct (BatchHandler_new c (log h) _); cbn; [reflexivity |].
  rewrite <- app_assoc. cbn.
  destruct (bh_spawn c _ _); reflexivity.
Qed.

(** [astop] on a running engine, step by step. *)
Lemma astop_hot c h :
  running (self h) = true ->
  astop c h =
    match _batch_handler (self h) with
    | None =>
        (inl (AttributeError "_batch_handler"),
         {| self := with_running false (self h); log := log h |})
    | Some bh =>
        (match bh_shutdown c (log h) bh with
         | Some x => inl (Propagated x)
         | None => inr tt
         end,
         {| self := with_running false (self h);
            log := log h ++ [EvShutdown bh] |})
    end.
Proof.
  intros H. unfold astop, bind. rewrite (check_running_true h H). cbn.
  unfold get_batch_handler, with_running, extern, unit_answer. cbn.
  destruct (_batch_handler (self h)); [| reflexivity].
  cbn. destruct (bh_shutdown c (log h) _); reflexivity.
Qed.

Lemma astop_cold c h :
  running (self h) = false ->
  astop c h = (inl (ValueError msg_not_started), h).
Proof.
  intros H. unfold astop, bind. now rewrite (check_running_false h H).
Qed.

(** The flag after a lifecycle call, whatever the call did. *)
Lemma astart_flag c h : running (self (snd (astart c h))) = true.
Proof.
  destruct (running (self h)) eqn:Hr.
  - now rewrite (astart_hot c h Hr).
  - rewrite (astart_cold c h Hr). cbn zeta.
    destruct (BatchHandler_new c (log h) (start_kw c h)); reflexivity.
Qed.

Lemma astop_flag c h : running (self (snd (astop c h))) = false.
Proof.
  destruct (running (self h)) eqn:Hr.
  - rewrite (astop_hot c h Hr).
    destruct (_batch_handler (self h)); reflexivity.
  - now rewrite (astop_cold c h Hr).
Qed.

Ltac run_request :=
  unfold embed, rerank, classify, overload_status, is_overloaded, bind,
    get_batch_handler, extern, ret.

(** ** Guards of the request methods *)

Lemma request_refused {A} (k : M A) h :
  running (self h) = false ->
  rejected (bind _check_running (fun _ => k)) h.
Proof.
  intros H. unfold rejected, bind. now rewrite (check_running_false h H).
Qed.

Lemma embed_hot c sentences h bh :
  running (self h) = true ->
  _batch_handler (self h) = Some bh ->
  embed c sentences h =
    (match bh_embed c (log h) bh sentences with
     | inl x => inl (Propagated x)
     | inr r => inr r
     end,
     {| self := self h; log := log h ++ [EvEmbed bh sentences] |}).
Proof.
  intros Hr Hb. run_request. rewrite (check_running_true h Hr), Hb. cbn.
  destruct (bh_embed c (log h) bh sentences) as [x | [e u]]; reflexivity.
Qed.

Lemma rerank_hot c query docs raw_scores h bh :
  running (self h) = true ->
  _batch_handler (self h) = Some bh ->
  rerank c query docs raw_scores h =
    (match bh_rerank c (log h) bh query docs raw_scores with
     | inl x => inl (Propagated x)
     | inr r => inr r
     end,
     {| self := self h;
        log := log h ++ [EvRerank bh query docs raw_scores] |}).
Proof.
  intros Hr Hb. run_request. rewrite (check_running_true h Hr), Hb. cbn.
  destruct (bh_rerank c (log h) bh query docs raw_scores) as [x | [e u]];
    reflexivity.
Qed.

Lemma classify_hot c sentences raw_scores h bh :
  running (self h) = true ->
  _batch_handler (self h) = Some bh ->
  classify c sentences raw_scores h =
    (match bh_classify c (log h) bh sentences None with
     | inl x => inl (Propagated x)
     | inr r => inr r
     end,
     {| self := self h; log := log h ++ [EvClassify bh sentences None] |}).
Proof.
  intros Hr Hb. run_request. rewrite (check_running_true h Hr), Hb. cbn.
  destruct (bh_classify c (log h) bh sentences None) as [x | [e u]];
    reflexivity.
Qed.

(** A running engine never answers with the facade's own [ValueError]. *)
Lemma running_not_rejected {A B} (ev : BatchHandler -> Event)
    (oracle : BatchHandler -> Log -> ExtError + A) (k : A -> M B) h :
  running (self h) = true ->
  (forall a h1, exists b, k a h1 = (inr b, h1)) ->
  ~ rejected
      (bind _check_running (fun _ =>
         bind get_batch_handler (fun bh =>
           bind (extern (ev bh) (oracle bh)) k))) h.
Proof.
  intros Hr Hk. unfold rejected, bind, get_batch_handler, extern.
  rewrite (check_running_true h Hr).
  destruct (_batch_handler (self h)) as [bh |]; [| discriminate].
  destruct (oracle bh (log h)) as [x | a]; [discriminate |].
  destruct (Hk a {| self := self h; log := log h ++ [ev bh] |}) as [b Hb].
  rewrite Hb. discriminate.
Qed.

(** C3: on an engine that is not running, [embed], [rerank], [classify],
    [overload_status] and [is_overloaded] each raise the facade's
    [ValueError] with the receiver and the log untouched, so nothing has
    reached the batch handler; and that is the only situation in which
    they do so: the five calls get past the guard exactly when the engine
    is running. *)
Theorem requests_guarded_by_running c h sentences query docs raw_scores :
  (rejected (embed c sentences) h <-> state_of (self h) <> Running) /\
  (rejected (rerank c query docs raw_scores) h
     <-> state_of (self h) <> Running) /\
  (rejected (classify c sentences raw_scores) h
     <-> state_of (self h) <> Running) /\
  (rejected (overload_status c) h <-> state_of (self h) <> Running) /\
  (rejected (is_overloaded c) h <-> state_of (self h) <> Running).
Proof.
  rewrite state_not_running.
  repeat split; intros H;
    try (now apply request_refused);
    (destruct (running (self h)) eqn:Hr; [exfalso | reflexivity]);
    revert H.
  - apply (running_not_rejected
             (fun bh => EvEmbed bh sentences)
             (fun bh l => bh_embed c l bh sentences)); [exact Hr |].
    intros [e u] h1. now exists (e, u).
  - apply (running_not_rejected
             (fun bh => EvRerank bh query docs raw_scores)
             (fun bh l => bh_rerank c l bh query docs raw_scores));
      [exact Hr |].
    intros [e u] h1. now exists (e, u).
  - apply (running_not_rejected
             (fun bh => EvClassify bh sentences None)
             (fun bh l => bh_classify c l bh sentences None)); [exact Hr |].
    intros [e u] h1. now exists (e, u).
  - unfold rejected, overload_status, bind, get_batch_handler, extern.
    rewrite (check_running_true h Hr).
    destruct (_batch_handler (self h)) as [bh |]; [| discriminate].
    destruct (bh_overload_status c (log h) bh); discriminate.
  - unfold rejected, is_overloaded, bind, get_batch_handler, extern.
    rewrite (check_running_true h Hr).
    destruct (_batch_handler (self h)) as [bh |]; [| discriminate].
    destruct (bh_is_overloaded c (log h) bh); discriminate.
Qed.

(** ** Guards of the lifecycle methods *)

(** C4: on a running engine [astart] raises the facade's [ValueError]
    (double spawn); the receiver and the log are exactly as before, so
    the engine is still running. *)
Theorem double_start_rejected c h :
  state_of (self h) = Running ->
  astart c h = (inl (ValueError msg_double_spawn), h) /\
  state_of (self (snd (astart c h))) = Running.
Proof.
  intros H.
  assert (Hr : running (self h) = true).
  { unfold state_of in H. destruct (running (self h)); [reflexivity |].
    destruct (_batch_handler (self h)); discriminate. }
  rewrite (astart_hot c h Hr). split; [reflexivity | exact H].
Qed.

Lemma double_start_rejected_witness :
  state_of (self Demo.h_running) = Running /\
  astart Demo.good Demo.h_running
    = (inl (ValueError msg_double_spawn), Demo.h_running).
Proof.
  split; [reflexivity |].
  apply (double_start_rejected Demo.good Demo.h_running). reflexivity.
Defined.

(** C5: on an engine that was never started, or was stopped, [astop]
    raises the facade's [ValueError]; the receiver and the log are
    exactly as before, so no [shutdown] was sent to a batch handler. *)
Theorem stop_without_start_rejected c h :
  state_of (self h) = Created \/ state_of (self h) = Stopped ->
  astop c h = (inl (ValueError msg_not_started), h).
Proof.
  intros H. apply astop_cold. now apply state_created_or_stopped.
Qed.

Lemma stop_without_start_rejected_witness :
  state_of (self Demo.h0) = Created /\
  astop Demo.good Demo.h0 = (inl (ValueError msg_not_started), Demo.h0).
Proof.
  split; [reflexivity |].
  apply (stop_without_start_rejected Demo.good Demo.h0).
  left. reflexivity.
Defined.

(** ** What a successful start does *)

(** C6: a successful [astart] on a never-started engine adds exactly two
    events to the log: one construction of a [BatchHandler], whose
    keywords are the configured batch size, the resolved model, half of
    the minimum inference time, the configured cache path, the verbosity
    read from the logger and the configured tokenization flag; and then
    one [spawn] on that very handler, which the engine keeps. *)
Theorem astart_builds_one_runtime c h h' :
  state_of (self h) = Created ->
  astart c h = (inr tt, h') ->
  let kw :=
    {| max_batch_size := batch_size (engine_args (self h));
       model := _model (self h);
       batch_delay := (_min_inference_t (self h) / 2)%float;
       kw_vector_disk_cache_path :=
         vector_disk_cache_path (engine_args (self h));
       verbose := (logger_level c (log h) <=? 10);
       kw_lengths_via_tokenize :=
         lengths_via_tokenize (engine_args (self h)) |} in
  let bh := {| bh_id := length (log h); bh_kw := kw |} in
  log h' = log h ++ [EvBatchHandler kw; EvSpawn bh] /\
  _batch_handler (self h') = Some bh /\
  state_of (self h') = Running.
Proof.
  intros Hs Ha.
  assert (Hr : running (self h) = false).
  { apply state_created_or_stopped. now left. }
  rewrite (astart_cold c h Hr) in Ha. cbn zeta in Ha.
  fold (start_kw c h).
  destruct (BatchHandler_new c (log h) (start_kw c h)); [discriminate |].
  destruct (bh_spawn c _ _); [discriminate |].
  injection Ha as <-. cbn. auto.
Qed.

Lemma astart_builds_one_runtime_witness :
  state_of (self Demo.h0) = Created /\
  astart Demo.good Demo.h0 = (inr tt, Demo.h_running) /\
  log Demo.h_running = [EvBatchHandler Demo.kw0; EvSpawn Demo.bh0] /\
  batch_delay Demo.kw0 = (0.5 / 2)%float.
Proof.
  assert (Hs : state_of (self Demo.h0) = Created) by reflexivity.
  assert (Ha : astart Demo.good Demo.h0 = (inr tt, Demo.h_running))
    by reflexivity.
  split; [exact Hs |]. split; [exact Ha |].
  destruct (astart_builds_one_runtime Demo.good Demo.h0 Demo.h_running
              Hs Ha) as [Hlog _].
  split; [exact Hlog | reflexivity].
Defined.

(** ** Capabilities *)

Lemma astart_keeps_model c h :
  _model (self (snd (astart c h))) = _model (self h).
Proof.
  destruct (running (self h)) eqn:Hr.
  - now rewrite (astart_hot c h Hr).
  - rewrite (astart_cold c h Hr). cbn zeta.
    destruct (BatchHandler_new c (log h) (start_kw c h)); reflexivity.
Qed.

Lemma astop_keeps_model c h :
  _model (self (snd (astop c h))) = _model (self h).
Proof.
  destruct (running (self h)) eqn:Hr.
  - rewrite (astop_hot c h Hr).
    destruct (_batch_handler (self h)); reflexivity.
  - now rewrite (astop_cold c h Hr).
Qed.

(** C7: whatever the state of the engine, reading [capabilities] raises
    nothing, touches neither the receiver nor the log, and yields the
    capability set of the model resolved at construction; [astart] and
    [astop], whether they succeed or fail, leave that answer as it was. *)
Theorem capabilities_in_any_state c h :
  capabilities h = (inr (model_capabilities (_model (self h))), h) /\
  fst (capabilities (snd (astart c h))) = fst (capabilities h) /\
  fst (capabilities (snd (astop c h))) = fst (capabilities h).
Proof.
  unfold capabilities, bind, attr, ret. cbn [fst].
  split; [reflexivity |].
  split; f_equal; f_equal.
  - apply astart_keeps_model.
  - apply astop_keeps_model.
Qed.

(** ** Starting again after a stop *)

(** C2, as stated, fails: on the demo collaborators a started and then
    stopped engine starts a second time, with a second batch handler. *)
Lemma stopped_engine_restarts :
  astart Demo.good Demo.h0 = (inr tt, Demo.h_running) /\
  astop Demo.good Demo.h_running = (inr tt, Demo.h_stopped) /\
  state_of (self Demo.h_stopped) = Stopped /\
  astart Demo.good Demo.h_stopped = (inr tt, Demo.h_restarted) /\
  state_of (self Demo.h_restarted) = Running.
Proof. repeat split; reflexivity. Qed.

(** C2, amended: a successful [astop] leaves the engine stopped, and
    stopped is not final.  The next [astart] is never refused with the
    facade's [ValueError]; it builds a new batch handler, and when that
    construction and the spawn both succeed it succeeds and the engine
    runs again. *)
Theorem stopped_engine_may_start_again c h h1 :
  astop c h = (inr tt, h1) ->
  state_of (self h1) = Stopped /\
  (forall msg, fst (astart c h1) <> inl (ValueError msg)) /\
  (let kw := start_kw c h1 in
   let bh := {| bh_id := length (log h1); bh_kw := kw |} in
   BatchHandler_new c (log h1) kw = None ->
   bh_spawn c (log h1 ++ [EvBatchHandler kw]) bh = None ->
   exists h2,
     astart c h1 = (inr tt, h2) /\
     log h2 = log h1 ++ [EvBatchHandler kw; EvSpawn bh] /\
     state_of (self h2) = Running).
Proof.
  intros Hstop.
  assert (Hr1 : running (self h1) = false /\ state_of (self h1) = Stopped).
  { destruct (running (self h)) eqn:Hr.
    - rewrite (astop_hot c h Hr) in Hstop.
      destruct (_batch_handler (self h)) eqn:Hb; [| discriminate].
      injection Hstop as _ <-. unfold state_of. cbn. now rewrite Hb.
    - rewrite (astop_cold c h Hr) in Hstop. discriminate. }
  destruct Hr1 as [Hr1 Hs1]. split; [exact Hs1 |].
  rewrite (astart_cold c h1 Hr1). cbn zeta. split.
  - intros msg.
    destruct (BatchHandler_new c (log h1) (start_kw c h1));
      [discriminate |].
    cbn. destruct (bh_spawn c _ _); discriminate.
  - intros -> ->. eexists. split; [reflexivity |]. cbn. auto.
Qed.

Lemma stopped_engine_may_start_again_witness :
  astop Demo.good Demo.h_running = (inr tt, Demo.h_stopped) /\
  exists h2, astart Demo.good Demo.h_stopped = (inr tt, h2) /\
             state_of (self h2) = Running.
Proof.
  assert (Hstop : astop Demo.good Demo.h_running = (inr tt, Demo.h_stopped))
    by reflexivity.
  split; [exact Hstop |].
  destruct (stopped_engine_may_start_again Demo.good Demo.h_running
              Demo.h_stopped Hstop) as (_ & _ & Hgo).
  destruct (Hgo eq_refl eq_refl) as (h2 & Ha & _ & Hs).
  exists h2. split; [exact Ha | exact Hs].
Defined.

(** ** A start that fails half-way *)

(** C10, as stated, fails where the constructor of the batch handler is
    what raises: the engine is left running, the next [astop] passes the
    guard and clears the flag, but there is no handler to shut down: the
    call ends in an [AttributeError] and no [shutdown] is sent. *)
Lemma stop_after_failed_construction :
  state_of (self Demo.h0) = Created /\
  astart Demo.ctor_broken Demo.h0 = (inl (Propagated Demo.boom), Demo.h_half) /\
  state_of (self Demo.h_half) = Running /\
  astop Demo.ctor_broken Demo.h_half
    = (inl (AttributeError "_batch_handler"),
       {| self := Demo.fresh; log := [EvBatchHandler Demo.kw0] |}) /\
  (forall bh,
     ~ In (EvShutdown bh) (log (snd (astop Demo.ctor_broken Demo.h_half)))).
Proof.
  repeat split; try reflexivity.
  intros bh [H | []]. discriminate.
Qed.

(** C10, amended: [astart] sets the flag before it builds and spawns the
    batch handler, so a never-started engine whose [astart] raises is left
    running: the next [astart] is refused with the facade's [ValueError],
    and the next [astop] passes the guard and clears the flag.  When the
    spawn raised, the handler is in place and that [astop] sends it
    [shutdown]; when the constructor raised, no handler is in place and
    that [astop] ends in an [AttributeError] with nothing sent. *)
Theorem failed_start_leaves_engine_running c h e h1 :
  state_of (self h) = Created ->
  astart c h = (inl e, h1) ->
  state_of (self h1) = Running /\
  astart c h1 = (inl (ValueError msg_double_spawn), h1) /\
  (forall msg, fst (astop c h1) <> inl (ValueError msg)) /\
  running (self (snd (astop c h1))) = false /\
  match _batch_handler (self h1) with
  | Some bh =>
      log h1 = log h ++ [EvBatchHandler (bh_kw bh); EvSpawn bh] /\
      log (snd (astop c h1)) = log h1 ++ [EvShutdown bh]
  | None =>
      log h1 = log h ++ [EvBatchHandler (start_kw c h)] /\
      astop c h1 = (inl (AttributeError "_batch_handler"),
                    {| self := with_running false (self h1);
                       log := log h1 |})
  end.
Proof.
  intros Hs Ha.
  assert (Hb : _batch_handler (self h) = None).
  { unfold state_of in Hs. destruct (running (self h)); [discriminate |].
    destruct (_batch_handler (self h)); [discriminate | reflexivity]. }
  assert (Hr : running (self h) = false).
  { apply state_created_or_stopped. now left. }
  rewrite (astart_cold c h Hr) in Ha. cbn zeta in Ha.
  assert (Hr1 : running (self h1) = true).
  { destruct (BatchHandler_new c (log h) (start_kw c h));
      injection Ha as _ <-; reflexivity. }
  split; [unfold state_of; now rewrite Hr1 |].
  split; [now apply astart_hot |].
  rewrite (astop_hot c h1 Hr1).
  destruct (BatchHandler_new c (log h) (start_kw c h)).
  - injection Ha as _ <-. cbn. rewrite Hb.
    repeat split; discriminate.
  - injection Ha as _ <-. cbn.
    repeat split; try reflexivity.
    intros msg. destruct (bh_shutdown c _ _); discriminate.
Qed.

Lemma failed_start_leaves_engine_running_witness :
  state_of (self Demo.h0) = Created /\
  astart Demo.ctor_broken Demo.h0
    = (inl (Propagated Demo.boom), Demo.h_half) /\
  astart Demo.ctor_broken Demo.h_half
    = (inl (ValueError msg_double_spawn), Demo.h_half).
Proof.
  assert (Hs : state_of (self Demo.h0) = Created) by reflexivity.
  assert (Ha : astart Demo.ctor_broken Demo.h0
               = (inl (Propagated Demo.boom), Demo.h_half)) by reflexivity.
  split; [exact Hs |]. split; [exact Ha |].
  exact (proj1 (proj2 (failed_start_leaves_engine_running
                         Demo.ctor_broken Demo.h0 _ Demo.h_half Hs Ha))).
Defined.

(** ** Forwarding of the request arguments *)

(** C1 at a concrete call: on a running engine,
    [classify(sentences=["a"], raw_scores=True)] reaches the batch handler
    as a [classify] call without any [raw_scores] keyword, so the handler
    answers as for its default and the two values of the flag give the
    same call and the same scores; the sibling [rerank] does pass its
    flag on. *)
Theorem classify_drops_raw_scores :
  classify Demo.good ["a"] true Demo.h_running
    = (inr ([[("pos", 0.5%float); ("neg", 0.5%float)]], 3),
       {| self := self Demo.h_running;
          log := log Demo.h_running
                   ++ [EvClassify Demo.bh0 ["a"] None] |}) /\
  classify Demo.good ["a"] true Demo.h_running
    = classify Demo.good ["a"] false Demo.h_running /\
  Demo.classify_answer (Some true) <> Demo.classify_answer None /\
  log (snd (rerank Demo.good "q" ["a"] true Demo.h_running))
    = log Demo.h_running ++ [EvRerank Demo.bh0 "q" ["a"] true].
Proof.
  split; [| split; [| split]].
  - rewrite (classify_hot Demo.good ["a"] true Demo.h_running Demo.bh0);
      reflexivity.
  - reflexivity.
  - discriminate.
  - rewrite (rerank_hot Demo.good "q" ["a"] true Demo.h_running Demo.bh0);
      reflexivity.
Qed.

(** ** The scoped lifecycle *)

Lemma awaits_cons m ev (l : Log) :
  awaits m (ev :: l) = ((if is_await m ev then 1 else 0) + awaits m l)%nat.
Proof. unfold awaits. cbn. now destruct (is_await m ev). Qed.

(** [__aenter__] is one run of [astart], and returns [None]. *)
Lemma aenter_eq c h :
  __aenter__ c h =
    (match fst (astart c (awaiting M_astart h)) with
     | inl e => inl e
     | inr _ => inr VNone
     end,
     snd (astart c (awaiting M_astart h))).
Proof.
  unfold __aenter__, bind, await, ret, awaiting.
  now destruct (astart c _) as [[e | []] h1].
Qed.

(** [__aexit__] is one run of [astop], whatever it is told about the
    exception in flight, and returns [None]. *)
Lemma aexit_eq c args h :
  __aexit__ c args h =
    (match fst (astop c (awaiting M_astop h)) with
     | inl e => inl e
     | inr _ => inr VNone
     end,
     snd (astop c (awaiting M_astop h))).
Proof.
  unfold __aexit__, bind, await, ret, awaiting.
  now destruct (astop c _) as [[e | []] h1].
Qed.

(** What one [astop], awaited from the heap [h], leaves in the log. *)
Lemma astop_awaited_log c h :
  log (snd (astop c (awaiting M_astop h)))
  = log h ++ EvAwait M_astop ::
      match running (self h), _batch_handler (self h) with
      | true, Some bh => [EvShutdown bh]
      | _, _ => []
      end.
Proof.
  destruct (running (self h)) eqn:Hr.
  - rewrite astop_hot by exact Hr. cbn [awaiting self log].
    destruct (_batch_handler (self h)) as [bh |]; cbn [snd log];
      [now rewrite <- app_assoc | reflexivity].
  - rewrite astop_cold by exact Hr. reflexivity.
Qed.

(** C8: entering the scope is one run of [astart].  Once the scope is
    entered, however its body is left (by falling through, by [return],
    or by an exception such as a failed request), the statement ends with
    one run of [astop] on the engine as the body left it: the final
    engine and log are those of that single [astop], and the outcome of
    the body is kept, exception included, unless that [astop] raises.
    Seen from outside: after the body the log gains one awaited [astop]
    and, when the body left the engine running with a handler, one
    [shutdown] of that handler and no other event; in all other cases no
    [shutdown] at all; and the engine is not running at the end. *)
Theorem scope_stops_exactly_once c {A} (body : M (Exit A)) h :
  __aenter__ c h =
    (match fst (astart c (awaiting M_astart h)) with
     | inl e => inl e
     | inr _ => inr VNone
     end,
     snd (astart c (awaiting M_astart h))) /\
  (forall v h1 r2 h2,
     __aenter__ c h = (inr v, h1) ->
     body h1 = (r2, h2) ->
     let stop := astop c (awaiting M_astop h2) in
     async_with c body h =
       (match fst stop with
        | inl e' => inl e'
        | inr _ => r2
        end,
        snd stop) /\
     exists leaving,
       log (snd (async_with c body h)) = log h2 ++ leaving /\
       leaving = EvAwait M_astop ::
                   match running (self h2), _batch_handler (self h2) with
                   | true, Some bh => [EvShutdown bh]
                   | _, _ => []
                   end /\
       awaits M_astop leaving = 1%nat /\
       awaits M_astart leaving = 0%nat /\
       shutdowns leaving =
         match running (self h2), _batch_handler (self h2) with
         | true, Some _ => 1%nat
         | _, _ => 0%nat
         end /\
       running (self (snd (async_with c body h))) = false).
Proof.
  split; [apply aenter_eq |].
  intros v h1 r2 h2 Henter Hbody stop.
  assert (Hrun : async_with c body h =
                 (match fst stop with
                  | inl e' => inl e'
                  | inr _ => r2
                  end, snd stop)).
  { unfold async_with. rewrite Henter, Hbody.
    destruct r2 as [e | x]; rewrite aexit_eq; fold stop;
      destruct stop as [[e' | []] h3]; reflexivity. }
  split; [exact Hrun |].
  rewrite Hrun. cbn [snd]. subst stop.
  eexists. split; [apply astop_awaited_log |].
  split; [reflexivity |].
  rewrite !awaits_cons. cbn [is_await].
  repeat split.
  - destruct (running (self h2)); [| reflexivity].
    now destruct (_batch_handler (self h2)).
  - destruct (running (self h2)); [| reflexivity].
    now destruct (_batch_handler (self h2)).
  - destruct (running (self h2)); [| reflexivity].
    now destruct (_batch_handler (self h2)).
  - apply astop_flag.
Qed.

(** When [__aenter__] raises, the scope is not entered: the body does not
    run and [__aexit__] is not called. *)
Lemma scope_not_entered c {A} (body : M (Exit A)) h e h1 :
  __aenter__ c h = (inl e, h1) ->
  async_with c body h = (inl e, h1).
Proof. intros H. unfold async_with. now rewrite H. Qed.

(** A scope whose body is one [rerank] call, on a model that cannot
    rerank: the call fails, the engine is stopped by one [astop] that
    shuts the handler down once, and the failure comes out of the
    scope. *)
Lemma scope_stops_exactly_once_witness :
  let body : M (Exit unit) :=
    bind (rerank Demo.good "q" ["d"] false) (fun _ => ret Normal) in
  async_with Demo.good body Demo.h0
    = (inl (Propagated Demo.not_deployed),
       {| self := with_batch_handler Demo.bh1
                    (with_running false Demo.fresh);
          log := [EvAwait M_astart;
                  EvBatchHandler Demo.kw0;
                  EvSpawn Demo.bh1;
                  EvRerank Demo.bh1 "q" ["d"] false;
                  EvAwait M_astop;
                  EvShutdown Demo.bh1] |}) /\
  exists leaving,
    leaving = [EvAwait M_astop; EvShutdown Demo.bh1] /\
    shutdowns leaving = 1%nat.
Proof.
  intros body.
  destruct (scope_stops_exactly_once Demo.good body Demo.h0)
    as [_ Hexit].
  destruct (Hexit VNone _ _ _ eq_refl eq_refl)
    as (Hrun & leaving & _ & Hleaving & _ & _ & Hone & _).
  split.
  - rewrite Hrun. reflexivity.
  - exists leaving. split; [exact Hleaving | exact Hone].
Defined.

(** ** Construction from a configuration value *)

Lemma without_named_asdict (a : EngineArgs) :
  Forall (fun k => passthrough a !! k = None) named_fields ->
  without_named (asdict a) = passthrough a.
Proof.
  intros Hfresh. unfold named_fields in Hfresh.
  repeat (apply Forall_cons in Hfresh as [? Hfresh]).
  unfold without_named, asdict, named_fields. cbn [foldr].
  apply map_eq. intros k.
  repeat (rewrite lookup_delete || rewrite lookup_insert);
    repeat case_decide; subst; try congruence; auto.
Qed.

Lemma union_defaults (p d : gmap string Value) :
  (forall k, is_Some (d !! k) -> is_Some (p !! k)) ->
  p ∪ d = p.
Proof.
  intros Hall. apply map_eq. intros k. rewrite lookup_union.
  destruct (p !! k) eqn:Hp; destruct (d !! k) eqn:Hd; cbn; auto.
  destruct (Hall k) as [w Hw]; [now rewrite Hd |].
  rewrite Hp in Hw. discriminate.
Qed.

(** Rebuilding a configuration from its own fields gives it back. *)
Lemma EngineArgs_new_asdict c (a : EngineArgs) :
  wf_args c a ->
  EngineArgs_new (EngineArgs_defaults c) (asdict a) = inr a.
Proof.
  intros [Hfresh Hall]. unfold EngineArgs_new, field.
  rewrite (without_named_asdict a Hfresh), (union_defaults _ _ Hall).
  unfold asdict.
  repeat (rewrite lookup_insert_eq
          || (rewrite lookup_insert_ne by discriminate)).
  cbn. destruct a as [m b p t pt]; cbn. now destruct p.
Qed.

(** The class call hands [__init__] keywords that it merges back into
    the dictionary they came from. *)
Lemma rebind_model_name (a : EngineArgs) :
  (if is_None (default VNone (asdict a !! "model_name_or_path"))
   then delete "model_name_or_path" (asdict a)
   else <["model_name_or_path" :=
            default VNone (asdict a !! "model_name_or_path")]>
          (delete "model_name_or_path" (asdict a)))
  = asdict a.
Proof.
  assert (H : asdict a !! "model_name_or_path"
              = Some (VStr (model_name_or_path a))).
  { unfold asdict. apply lookup_insert_eq. }
  rewrite H. cbn. rewrite insert_delete_eq. now apply insert_id.
Qed.

Lemma from_args_eq c (a : EngineArgs) l :
  wf_args c a ->
  from_args c a l =
    (match select_model c l a with
     | inl x => inl (Propagated x)
     | inr (m, tmin, tmax) =>
         inr {| engine_args := a; running := false; _model := m;
                _min_inference_t := tmin; _max_inference_t := tmax;
                _batch_handler := None |}
     end,
     l ++ [EvSelectModel a]).
Proof.
  intros Hwf. unfold from_args, call__init__, __init__. cbv zeta.
  rewrite (rebind_model_name a), (EngineArgs_new_asdict c a Hwf).
  destruct (select_model c l a) as [x | [[m tmin] tmax]]; reflexivity.
Qed.

(** C9: for a well-formed configuration, [from_args] consults
    [select_model] once and nothing else; when that succeeds it returns
    an engine in state [Created] (no batch handler built, none stored)
    whose [engine_args] is the configuration given.  The keyword
    constructor called with the same fields does exactly what [from_args]
    does once the deprecation warning has been logged. *)
Theorem from_args_creates_engine c (a : EngineArgs) l :
  wf_args c a ->
  snd (from_args c a l) = l ++ [EvSelectModel a] /\
  (forall x, select_model c l a = inl x ->
             fst (from_args c a l) = inl (Propagated x)) /\
  (forall m tmin tmax,
     select_model c l a = inr (m, tmin, tmax) ->
     exists e,
       fst (from_args c a l) = inr e /\
       state_of e = Created /\
       engine_args e = a /\
       _model e = m /\
       _min_inference_t e = tmin /\ _max_inference_t e = tmax) /\
  call__init__ c (asdict a) true l
    = from_args c a (l ++ [EvWarning msg_deprecated]).
Proof.
  intros Hwf. rewrite (from_args_eq c a l Hwf).
  split; [reflexivity |]. split; [| split].
  - now intros x ->.
  - intros m tmin tmax ->. eexists. cbn.
    split; [reflexivity |]. repeat split.
  - reflexivity.
Qed.

Lemma demo_args_wf : wf_args Demo.good Demo.args.
Proof.
  split.
  - unfold named_fields. repeat constructor.
  - intros k Hk. exact Hk.
Qed.

Lemma from_args_creates_engine_witness :
  wf_args Demo.good Demo.args /\
  from_args Demo.good Demo.args [] = (inr Demo.fresh, [EvSelectModel Demo.args]) /\
  call__init__ Demo.good (asdict Demo.args) true []
    = (inr Demo.fresh,
       [EvWarning msg_deprecated; EvSelectModel Demo.args]).
Proof.
  split; [exact demo_args_wf |].
  destruct (from_args_creates_engine Demo.good Demo.args [] demo_args_wf)
    as (Hlog & _ & Hok & Hlegacy).
  destruct (Hok Demo.bge 0.5%float 2%float eq_refl)
    as (e & He & _ & Ha & Hm & Ht1 & Ht2).
  split.
  - rewrite (from_args_eq Demo.good Demo.args [] demo_args_wf).
    reflexivity.
  - rewrite Hlegacy.
    rewrite (from_args_eq Demo.good Demo.args _ demo_args_wf).
    reflexivity.
Defined.

(** ** Further examples *)

(** When it is the spawn that raises, the handler is in place, and the
    next [astop] shuts it down. *)
Example stop_after_failed_spawn :
  astart Demo.spawn_broken Demo.h0
    = (inl (Propagated Demo.boom), Demo.h_running) /\
  astop Demo.spawn_broken Demo.h_running = (inr tt, Demo.h_stopped).
Proof. split; reflexivity. Qed.

(** [embed] hands its sentences over as they are. *)
Example embed_forwards :
  embed Demo.good ["a"; "b"] Demo.h_running
    = (inr ([[1%float]; [1%float]], 1),
       {| self := self Demo.h_running;
          log := log Demo.h_running ++ [EvEmbed Demo.bh0 ["a"; "b"]] |}).
Proof.
  rewrite (embed_hot Demo.good ["a"; "b"] Demo.h_running Demo.bh0);
    reflexivity.
Qed.

(** * Further properties of the facade *)

(** ** The flag after a lifecycle call *)

(** X1: whatever [astart] did (it succeeded, it was refused, or the
    constructor or the spawn of the batch handler raised), the engine is
    marked running afterwards, so an [astart] that follows at once is
    refused and changes nothing. *)
Theorem astart_always_leaves_running c h :
  running (self (snd (astart c h))) = true /\
  astart c (snd (astart c h))
    = (inl (ValueError msg_double_spawn), snd (astart c h)).
Proof.
  split; [apply astart_flag |]. apply astart_hot, astart_flag.
Qed.

(** X2: whatever [astop] did (it succeeded, it was refused, the handler
    was missing, or [shutdown] raised), the engine is marked not running
    afterwards, so an [astop] that follows at once is refused and sends
    no second [shutdown]. *)
Theorem astop_always_leaves_stopped c h :
  running (self (snd (astop c h))) = false /\
  astop c (snd (astop c h))
    = (inl (ValueError msg_not_started), snd (astop c h)).
Proof.
  split; [apply astop_flag |]. apply astop_cold, astop_flag.
Qed.

(** X3: on a never-started engine, a successful [astart] followed by a
    successful [astop] logs exactly three calls: the construction of a
    batch handler, its spawn, and the shutdown of that same handler.  The
    engine is as it was before, except that it keeps the handler. *)
Theorem start_then_stop c h h1 h2 :
  state_of (self h) = Created ->
  astart c h = (inr tt, h1) ->
  astop c h1 = (inr tt, h2) ->
  let bh := {| bh_id := length (log h); bh_kw := start_kw c h |} in
  log h2 = log h ++ [EvBatchHandler (start_kw c h); EvSpawn bh;
                     EvShutdown bh] /\
  self h2 = with_batch_handler bh (self h) /\
  state_of (self h2) = Stopped.
Proof.
  intros Hs Ha Hz.
  assert (Hr : running (self h) = false).
  { apply state_created_or_stopped. now left. }
  rewrite (astart_cold c h Hr) in Ha. cbn zeta in Ha.
  destruct (BatchHandler_new c (log h) (start_kw c h)); [discriminate |].
  destruct (bh_spawn c _ _); [discriminate |].
  injection Ha as <-.
  rewrite astop_hot in Hz by reflexivity. cbn in Hz.
  destruct (bh_shutdown c _ _); [discriminate |].
  injection Hz as <-. cbn.
  rewrite <- app_assoc. cbn. split; [reflexivity |].
  split; [| reflexivity].
  unfold with_batch_handler, with_running. cbn. now rewrite Hr.
Qed.

Lemma start_then_stop_witness :
  state_of (self Demo.h0) = Created /\
  log Demo.h_stopped
    = [EvBatchHandler Demo.kw0; EvSpawn Demo.bh0; EvShutdown Demo.bh0].
Proof.
  split; [reflexivity |].
  exact (proj1 (start_then_stop Demo.good Demo.h0 Demo.h_running
                  Demo.h_stopped eq_refl eq_refl eq_refl)).
Defined.

(** X4: on a running engine that holds a handler, [astop] sends exactly
    one [shutdown], to that handler, and answers as the handler did: an
    exception of [shutdown] comes out unchanged.  Even then the flag has
    already been cleared, and the engine still holds the handler. *)
Theorem astop_sends_one_shutdown c h bh :
  running (self h) = true ->
  _batch_handler (self h) = Some bh ->
  astop c h =
    (match bh_shutdown c (log h) bh with
     | Some x => inl (Propagated x)
     | None => inr tt
     end,
     {| self := with_running false (self h);
        log := log h ++ [EvShutdown bh] |}) /\
  _batch_handler (self (snd (astop c h))) = Some bh.
Proof.
  intros Hr Hb. rewrite (astop_hot c h Hr), Hb. split; [reflexivity |].
  exact Hb.
Qed.

Lemma astop_sends_one_shutdown_witness :
  astop Demo.good Demo.h_running = (inr tt, Demo.h_stopped).
Proof.
  rewrite (proj1 (astop_sends_one_shutdown Demo.good Demo.h_running
                    Demo.bh0 eq_refl eq_refl)).
  reflexivity.
Defined.

(** ** Requests on a running engine *)

Lemma request_no_handler {A} (k : BatchHandler -> M A) h :
  running (self h) = true ->
  _batch_handler (self h) = None ->
  bind _check_running (fun _ => bind get_batch_handler k) h
    = (inl (AttributeError "_batch_handler"), h).
Proof.
  intros Hr Hb. unfold bind, get_batch_handler.
  now rewrite (check_running_true h Hr), Hb.
Qed.

Lemma overload_status_hot c h bh :
  running (self h) = true ->
  _batch_handler (self h) = Some bh ->
  overload_status c h =
    (match bh_overload_status c (log h) bh with
     | inl x => inl (Propagated x)
     | inr r => inr r
     end,
     {| self := self h; log := log h ++ [EvOverloadStatus bh] |}).
Proof.
  intros Hr Hb. run_request. rewrite (check_running_true h Hr), Hb. cbn.
  now destruct (bh_overload_status c (log h) bh).
Qed.

Lemma is_overloaded_hot c h bh :
  running (self h) = true ->
  _batch_handler (self h) = Some bh ->
  is_overloaded c h =
    (match bh_is_overloaded c (log h) bh with
     | inl x => inl (Propagated x)
     | inr r => inr r
     end,
     {| self := self h; log := log h ++ [EvIsOverloaded bh] |}).
Proof.
  intros Hr Hb. run_request. rewrite (check_running_true h Hr), Hb. cbn.
  now destruct (bh_is_overloaded c (log h) bh).
Qed.

(** X5: an engine that is marked running but holds no batch handler (its
    first [astart] raised in the constructor) refuses nothing: the five
    guarded methods pass the guard and end in an [AttributeError], with
    the receiver and the log untouched. *)
Theorem requests_without_handler c h sentences query docs raw_scores :
  running (self h) = true ->
  _batch_handler (self h) = None ->
  embed c sentences h = (inl (AttributeError "_batch_handler"), h) /\
  rerank c query docs raw_scores h
    = (inl (AttributeError "_batch_handler"), h) /\
  classify c sentences raw_scores h
    = (inl (AttributeError "_batch_handler"), h) /\
  overload_status c h = (inl (AttributeError "_batch_handler"), h) /\
  is_overloaded c h = (inl (AttributeError "_batch_handler"), h).
Proof.
  intros Hr Hb. repeat split; now apply request_no_handler.
Qed.

Lemma requests_without_handler_witness :
  running (self Demo.h_half) = true /\
  embed Demo.ctor_broken ["a"] Demo.h_half
    = (inl (AttributeError "_batch_handler"), Demo.h_half).
Proof.
  split; [reflexivity |].
  exact (proj1 (requests_without_handler Demo.ctor_broken Demo.h_half
                  ["a"] "q" ["d"] false eq_refl eq_refl)).
Defined.

(** X6: on a running engine that holds a handler, [embed] and [rerank]
    each make one call to that handler, with the arguments as given, and
    hand back what the handler answered: its pair of results and usage,
    or its exception. *)
Theorem embed_rerank_delegate c h bh sentences query docs raw_scores :
  running (self h) = true ->
  _batch_handler (self h) = Some bh ->
  embed c sentences h =
    (match bh_embed c (log h) bh sentences with
     | inl x => inl (Propagated x)
     | inr r => inr r
     end,
     {| self := self h; log := log h ++ [EvEmbed bh sentences] |}) /\
  rerank c query docs raw_scores h =
    (match bh_rerank c (log h) bh query docs raw_scores with
     | inl x => inl (Propagated x)
     | inr r => inr r
     end,
     {| self := self h;
        log := log h ++ [EvRerank bh query docs raw_scores] |}).
Proof.
  intros Hr Hb. split.
  - now apply embed_hot.
  - now apply rerank_hot.
Qed.

Lemma embed_rerank_delegate_witness :
  rerank Demo.good "q" ["d"] true Demo.h_running
    = (inl (Propagated Demo.not_deployed),
       {| self := self Demo.h_running;
          log := log Demo.h_running
                   ++ [EvRerank Demo.bh0 "q" ["d"] true] |}).
Proof.
  rewrite (proj2 (embed_rerank_delegate Demo.good Demo.h_running Demo.bh0
                    [] "q" ["d"] true eq_refl eq_refl)).
  reflexivity.
Defined.

(** X7: on a running engine that holds a handler, [overload_status] and
    [is_overloaded] each make one call to that handler and hand back its
    answer or its exception. *)
Theorem introspection_delegates c h bh :
  running (self h) = true ->
  _batch_handler (self h) = Some bh ->
  overload_status c h =
    (match bh_overload_status c (log h) bh with
     | inl x => inl (Propagated x)
     | inr r => inr r
     end,
     {| self := self h; log := log h ++ [EvOverloadStatus bh] |}) /\
  is_overloaded c h =
    (match bh_is_overloaded c (log h) bh with
     | inl x => inl (Propagated x)
     | inr r => inr r
     end,
     {| self := self h; log := log h ++ [EvIsOverloaded bh] |}).
Proof.
  intros Hr Hb. split.
  - now apply overload_status_hot.
  - now apply is_overloaded_hot.
Qed.

Lemma introspection_delegates_witness :
  is_overloaded Demo.good Demo.h_running
    = (inr false,
       {| self := self Demo.h_running;
          log := log Demo.h_running ++ [EvIsOverloaded Demo.bh0] |}).
Proof.
  rewrite (proj2 (introspection_delegates Demo.good Demo.h_running
                    Demo.bh0 eq_refl eq_refl)).
  reflexivity.
Defined.

(** X8: no request, no load query and no read of [capabilities] ever
    changes the engine object, in any state and whatever the batch
    handler answers. *)
Theorem requests_never_touch_engine c h sentences query docs raw_scores :
  self (snd (embed c sentences h)) = self h /\
  self (snd (rerank c query docs raw_scores h)) = self h /\
  self (snd (classify c sentences raw_scores h)) = self h /\
  self (snd (overload_status c h)) = self h /\
  self (snd (is_overloaded c h)) = self h /\
  self (snd (capabilities h)) = self h.
Proof.
  destruct (running (self h)) eqn:Hr.
  - destruct (_batch_handler (self h)) as [bh |] eqn:Hb.
    + rewrite (embed_hot c sentences h bh Hr Hb),
        (rerank_hot c query docs raw_scores h bh Hr Hb),
        (classify_hot c sentences raw_scores h bh Hr Hb),
        (overload_status_hot c h bh Hr Hb),
        (is_overloaded_hot c h bh Hr Hb).
      repeat split.
    + unfold embed, rerank, classify, overload_status, is_overloaded.
      rewrite !(request_no_handler _ h Hr Hb). repeat split.
  - unfold embed, rerank, classify, overload_status, is_overloaded.
    rewrite !(request_refused _ h Hr). repeat split.
Qed.

(** ** More on the scoped lifecycle *)

(** X9: opening a scope on an engine that is already running raises the
    double-spawn [ValueError].  The body is not run, nothing is sent to
    the batch handler, and the engine is still running: the scope that
    failed to open does not stop it. *)
Theorem scope_on_running_engine c {A} (body : M (Exit A)) h :
  state_of (self h) = Running ->
  async_with c body h
    = (inl (ValueError msg_double_spawn),
       {| self := self h; log := log h ++ [EvAwait M_astart] |}) /\
  state_of (self (snd (async_with c body h))) = Running.
Proof.
  intros Hs.
  assert (Hr : running (self h) = true).
  { unfold state_of in Hs. destruct (running (self h)); [reflexivity |].
    destruct (_batch_handler (self h)); discriminate. }
  assert (Hrun : async_with c body h
                 = (inl (ValueError msg_double_spawn),
                    {| self := self h;
                       log := log h ++ [EvAwait M_astart] |})).
  { unfold async_with, __aenter__, bind, await.
    now rewrite astart_hot by exact Hr. }
  rewrite Hrun. split; [reflexivity | exact Hs].
Qed.

Lemma scope_on_running_engine_witness :
  state_of (self Demo.h_running) = Running /\
  async_with Demo.good (ret (@Normal unit)) Demo.h_running
    = (inl (ValueError msg_double_spawn),
       {| self := self Demo.h_running;
          log := log Demo.h_running ++ [EvAwait M_astart] |}).
Proof.
  split; [reflexivity |].
  exact (proj1 (scope_on_running_engine Demo.good (ret Normal)
                  Demo.h_running eq_refl)).
Defined.

(** X10: when the body of an entered scope leaves the engine not running
    (it called [astop] itself, say), leaving the scope raises the
    not-started [ValueError], whatever the body returned or raised, and
    sends no [shutdown]. *)
Theorem scope_exit_after_body_stopped c {A} (body : M (Exit A))
    h v h1 r2 h2 :
  __aenter__ c h = (inr v, h1) ->
  body h1 = (r2, h2) ->
  running (self h2) = false ->
  async_with c body h
    = (inl (ValueError msg_not_started),
       {| self := self h2; log := log h2 ++ [EvAwait M_astop] |}).
Proof.
  intros Henter Hbody Hr. unfold async_with. rewrite Henter, Hbody.
  assert (Hexit : forall args,
            __aexit__ c args h2
            = (inl (ValueError msg_not_started),
               {| self := self h2; log := log h2 ++ [EvAwait M_astop] |})).
  { intros args. unfold __aexit__, bind, await.
    now rewrite astop_cold by exact Hr. }
  destruct r2 as [e | x]; now rewrite Hexit.
Qed.

Lemma scope_exit_after_body_stopped_witness :
  let body : M (Exit unit) :=
    bind (astop Demo.good) (fun _ => ret Normal) in
  fst (async_with Demo.good body Demo.h0)
    = inl (ValueError msg_not_started).
Proof.
  intros body.
  rewrite (scope_exit_after_body_stopped Demo.good body Demo.h0 VNone
             _ _ _ eq_refl eq_refl eq_refl).
  reflexivity.
Defined.

(** X11: once a scope has been entered, the engine is never running when
    the statement is over, however the body ended and whatever [astop]
    and [shutdown] did. *)
Theorem scope_ends_not_running c {A} (body : M (Exit A)) h v h1 :
  __aenter__ c h = (inr v, h1) ->
  running (self (snd (async_with c body h))) = false.
Proof.
  intros Henter. unfold async_with. rewrite Henter.
  assert (Hexit : forall args h2,
            running (self (snd (__aexit__ c args h2))) = false).
  { intros args h2. unfold __aexit__, bind, await, ret.
    pose proof (astop_flag c
      {| self := self h2; log := log h2 ++ [EvAwait M_astop] |}) as Hf.
    destruct (astop c _) as [[e | []] h3]; exact Hf. }
  destruct (body h1) as [[e | x] h2].
  - specialize (Hexit (Some e) h2).
    destruct (__aexit__ c (Some e) h2) as [[e' | w] h3]; [exact Hexit |].
    destruct (truthy w); exact Hexit.
  - specialize (Hexit None h2).
    destruct (__aexit__ c None h2) as [[e' | w] h3]; exact Hexit.
Qed.

Lemma scope_ends_not_running_witness :
  running (self (snd (async_with Demo.good (ret (@Return nat 7%nat))
                        Demo.h0))) = false.
Proof.
  exact (scope_ends_not_running Demo.good (ret (Return 7%nat)) Demo.h0
           VNone _ eq_refl).
Defined.

(** ** More on construction *)

(** X12: the constructor, whatever its arguments, never builds or spawns
    a batch handler: it logs the deprecation warning exactly when asked
    to show it, then at most one call of [select_model], and nothing
    else; and an engine it returns is in state [Created]. *)
Theorem constructor_never_starts_runtime c name w kwargs l :
  (exists resolved,
     snd (__init__ c name w kwargs l)
     = l ++ (if w then [EvWarning msg_deprecated] else [])
         ++ match resolved with
            | Some a => [EvSelectModel a]
            | None => []
            end) /\
  (forall e, fst (__init__ c name w kwargs l) = inr e ->
             state_of e = Created).
Proof.
  unfold __init__. cbv zeta.
  destruct (EngineArgs_new _ _) as [err | a].
  - split; [exists None | discriminate].
    cbn. destruct w; now rewrite !app_nil_r.
  - split.
    + exists (Some a).
      destruct (select_model c _ a) as [x | [[m tmin] tmax]];
        destruct w; cbn; now rewrite <- ?app_assoc.
    + intros e.
      destruct (select_model c _ a) as [x | [[m tmin] tmax]];
        [discriminate |].
      now intros [= <-].
Qed.

(** X13: the configuration and the resolved model reach the runtime.
    For a well-formed configuration that [select_model] resolves to a
    model and a minimum inference time, the first thing [astart] does on
    the engine [from_args] returned is to construct a batch handler with
    that batch size, that model, half that minimum time, and that cache
    path and tokenization flag. *)
Theorem from_args_then_astart c (a : EngineArgs) l m tmin tmax :
  wf_args c a ->
  select_model c l a = inr (m, tmin, tmax) ->
  exists e tail,
    from_args c a l = (inr e, l ++ [EvSelectModel a]) /\
    let h := {| self := e; log := l ++ [EvSelectModel a] |} in
    log (snd (astart c h))
    = log h
        ++ EvBatchHandler
             {| max_batch_size := batch_size a;
                model := m;
                batch_delay := (tmin / 2)%float;
                kw_vector_disk_cache_path := vector_disk_cache_path a;
                verbose := (logger_level c (log h) <=? 10);
                kw_lengths_via_tokenize := lengths_via_tokenize a |}
        :: tail.
Proof.
  intros Hwf Hsel. rewrite (from_args_eq c a l Hwf), Hsel.
  eexists. 
  destruct (BatchHandler_new c (l ++ [EvSelectModel a])
              (start_kw c {| self := {| engine_args := a; running := false;
                                        _model := m;
                                        _min_inference_t := tmin;
                                        _max_inference_t := tmax;
                                        _batch_handler := None |};
                             log := l ++ [EvSelectModel a] |})) eqn:Hnew;
    eexists; (split; [reflexivity |]); cbn zeta;
    rewrite astart_cold by reflexivity; cbn zeta; cbn [log self];
    rewrite Hnew; reflexivity.
Qed.

Lemma from_args_then_astart_witness :
  wf_args Demo.good Demo.args /\
  exists e tail,
    from_args Demo.good Demo.args [] = (inr e, [EvSelectModel Demo.args]) /\
    log (snd (astart Demo.good
                {| self := e; log := [EvSelectModel Demo.args] |}))
    = [EvSelectModel Demo.args] ++ EvBatchHandler Demo.kw0 :: tail.
Proof.
  split; [exact demo_args_wf |].
  destruct (from_args_then_astart Demo.good Demo.args [] Demo.bge
              0.5%float 2%float demo_args_wf eq_refl)
    as (e & tail & Hfrom & Hlog).
  exists e, tail. split; [exact Hfrom | exact Hlog].
Defined.
